(** * DeepSeek block translator: messages to v1 standard content blocks

    A shallow embedding of
    [libs/langchain-core/src/messages/block_translators/deepseek.ts]:
    the function [convertToV1FromDeepSeek] and the translator object
    [ChatDeepSeekTranslator] built from it.

    The translator is JavaScript: it inspects loosely typed fields at run
    time ([typeof], [Array.isArray], the helpers [_isObject] and
    [_isString]), allocates a local array [blocks] and fills it with
    [push].  The embedding keeps all of that:
    - JavaScript values are an inductive type, objects being finite maps
      from property names to values;
    - a call runs in a state-and-exception monad over a store of array
      objects, so that allocation, in-place [push], the reference that is
      returned and a possible [TypeError] are all explicit;
    - the translator takes a message as it is at run time, every field an
      arbitrary value; the messages whose tool calls are as declared are
      embedded in those. *)

From stdpp Require Import gmap strings list fin_maps.

Set Warnings "-register-all".
Set Default Proof Using "Type".

(** ** JavaScript values *)

(** Numbers are only ever produced by [.length] and compared with [0] here,
    so the integers stand for them.  A string is a sequence of characters;
    the translator observes of it only whether it is empty. *)
Inductive JSValue : Type :=
  | JUndefined
  | JNull
  | JBoolean (b : bool)
  | JNumber (n : Z)
  | JString (s : string)
  | JArray (elements : list JSValue)
  | JObject (properties : gmap string JSValue).

(** [typeof v] *)
Definition typeof (v : JSValue) : string :=
  match v with
  | JUndefined => "undefined"
  | JNull => "object"
  | JBoolean _ => "boolean"
  | JNumber _ => "number"
  | JString _ => "string"
  | JArray _ => "object"
  | JObject _ => "object"
  end.

(** [Array.isArray(v)] *)
Definition isArray (v : JSValue) : bool :=
  match v with
  | JArray _ => true
  | _ => false
  end.

(** Modelled from the spec: the helper [_isObject] of
    [block_translators/utils], which is imported by the translator but is
    not among the sources.  The spec takes the metadata bag to be a mapping
    that may be missing; the guard holds of the values whose [typeof] is
    ["object"], [null] excepted. *)
Definition _isObject (v : JSValue) : bool :=
  match v with
  | JObject _ | JArray _ => true
  | _ => false
  end.

(** Modelled from the spec: the helper [_isString] of
    [block_translators/utils], likewise imported and not among the sources.
    The spec reads it as "is of string type". *)
Definition _isString (v : JSValue) : bool :=
  match v with
  | JString _ => true
  | _ => false
  end.

(** [a > b], on the numbers; any other operand makes the comparison false
    here (the translator compares a string's length with [0]). *)
Definition jsGreater (a b : JSValue) : bool :=
  match a, b with
  | JNumber x, JNumber y => bool_decide (y < x)%Z
  | _, _ => false
  end.

(** ** Completions and the store of array objects *)

Inductive JSError : Type :=
  | TypeError (msg : string).

Inductive Completion (A : Type) : Type :=
  | Normal (a : A)
  | Throw (e : JSError).
Arguments Normal {A} a.
Arguments Throw {A} e.

(** A reference to an array object created while the code runs; the store
    holds the current elements of each. *)
Abbreviation Ref := nat.
Abbreviation Heap := (list (list JSValue)).

Definition JS (A : Type) : Type := Heap → Completion (A * Heap).

Definition js_ret {A} (a : A) : JS A := λ h, Normal (a, h).

Definition js_bind {A B} (c : JS A) (k : A → JS B) : JS B :=
  λ h, match c h with
       | Normal (a, h') => k a h'
       | Throw e => Throw e
       end.

Definition throw {A} (e : JSError) : JS A := λ _, Throw e.

#[global] Instance JS_ret : MRet JS := @js_ret.
#[global] Instance JS_bind : MBind JS := λ A B k c, js_bind c k.

(** [[]] as an expression: a fresh, empty array object. *)
Definition newArray : JS Ref :=
  λ h, Normal (length h, h ++ [[]]).

(** [r.push(x)]: the array object is updated in place. *)
Definition push (r : Ref) (x : JSValue) : JS unit :=
  λ h, match h !! r with
       | Some elements => Normal ((), <[r := elements ++ [x]]> h)
       | None => Throw (TypeError "push: not an array object")
       end.

(** The elements a holder of the reference [r] sees. *)
Definition readArray (r : Ref) : JS (list JSValue) :=
  λ h, match h !! r with
       | Some elements => Normal (elements, h)
       | None => Throw (TypeError "read: not an array object")
       end.

(** [v.k] for a named property [k].  Reading a property of [undefined] or
    [null] throws; a primitive has no own named property besides a string's
    [length]; an array has [length] (its indices are not named
    properties). *)
Definition getProp (v : JSValue) (k : string) : JS JSValue :=
  match v with
  | JUndefined | JNull =>
      throw (TypeError "Cannot read properties of undefined or null")
  | JObject properties => mret (default JUndefined (properties !! k))
  | JString s =>
      mret (if bool_decide (k = "length")
            then JNumber (Z.of_nat (String.length s)) else JUndefined)
  | JArray elements =>
      mret (if bool_decide (k = "length")
            then JNumber (Z.of_nat (length elements)) else JUndefined)
  | JBoolean _ | JNumber _ => mret JUndefined
  end.

(** [a && b] on conditions: [b] is evaluated only when [a] holds. *)
Definition andAlso (a b : JS bool) : JS bool :=
  x ← a; if x : bool then b else mret false.
Infix "&&&" := andAlso (at level 40, left associativity).

(** [for (const x of l) body], over the elements already taken out. *)
Fixpoint forEach {A} (l : list A) (body : A → JS unit) : JS unit :=
  match l with
  | [] => mret ()
  | x :: l' => body x;; forEach l' body
  end.

(** The values [for (const x of v)] visits: the elements of an array, the
    characters of a string; nothing else that is a [JSValue] is iterable. *)
Definition iterate (v : JSValue) : JS (list JSValue) :=
  match v with
  | JArray elements => mret elements
  | JString s => mret ((λ c, JString (String c "")) <$> String.list_ascii_of_string s)
  | _ => throw (TypeError "value is not iterable")
  end.

Definition forOf (v : JSValue) (body : JSValue → JS unit) : JS unit :=
  l ← iterate v; forEach l body.

(** The operand of an expression: a value held by the message, or an array
    object created while the code runs. *)
Inductive Operand : Type :=
  | Value (v : JSValue)
  | Object (r : Ref).

(** [v === undefined || v === null] *)
Definition nullish (v : JSValue) : bool :=
  match v with
  | JUndefined | JNull => true
  | _ => false
  end.

(** [v ?? e]: [e] is evaluated only when [v] is [undefined] or [null]. *)
Definition coalesce (v : JSValue) (e : JS Ref) : JS Operand :=
  if nullish v then r ← e; mret (Object r) else mret (Value v).

(** [for (const x of o) body], [o] being an operand. *)
Definition forOfOperand (o : Operand) (body : JSValue → JS unit) : JS unit :=
  l ← match o with
      | Value v => iterate v
      | Object r => readArray r
      end;
  forEach l body.

(** ** Messages *)

(** A message as the translator meets it at run time: whatever the declared
    types, each field may hold any value.  [chunk] tells an
    [AIMessageChunk] from an [AIMessage]. *)
Module Raw.
Record t : Type := mk {
  chunk : bool;
  content : JSValue;
  additional_kwargs : JSValue;
  tool_calls : JSValue;
  response_metadata : JSValue
}.
End Raw.

(** An entry of [tool_calls].  Its three fields are copied, never
    inspected, so they are arbitrary values. *)
Module ToolCall.
Record t : Type := mk { id : JSValue; name : JSValue; args : JSValue }.
End ToolCall.

(** The fields of a message whose tool calls are as declared.  [content]
    and [additional_kwargs] are tested at run time and are therefore
    arbitrary values; [tool_calls] is an optional array of tool calls
    ([tool_calls?: ToolCall[]]), [None] being [undefined]. *)
Record MessageFields : Type := mkFields {
  content : JSValue;
  additional_kwargs : JSValue;
  tool_calls : option (list ToolCall.t);
  response_metadata : JSValue
}.

(** [AIMessage | AIMessageChunk]: a complete message or a streamed chunk. *)
Inductive Message : Type :=
  | AIMessage (fields : MessageFields)
  | AIMessageChunk (fields : MessageFields).

Definition fieldsOf (m : Message) : MessageFields :=
  match m with
  | AIMessage f => f
  | AIMessageChunk f => f
  end.
Coercion fieldsOf : Message >-> MessageFields.

(** A declared tool call as the object it is. *)
Definition toolCallObject (toolCall : ToolCall.t) : JSValue :=
  JObject {[ "id" := ToolCall.id toolCall;
             "name" := ToolCall.name toolCall;
             "args" := ToolCall.args toolCall ]}.

(** Such a message as the translator meets it. *)
Definition rawOf (m : Message) : Raw.t :=
  {| Raw.chunk := match m with
                  | AIMessage _ => false
                  | AIMessageChunk _ => true
                  end;
     Raw.content := content m;
     Raw.additional_kwargs := additional_kwargs m;
     Raw.tool_calls := match tool_calls m with
                       | None => JUndefined
                       | Some calls => JArray (toolCallObject <$> calls)
                       end;
     Raw.response_metadata := response_metadata m |}.
Coercion rawOf : Message >-> Raw.t.

(** ** The translator *)

Definition convertToV1FromDeepSeek (message : Raw.t) : JS Ref :=
  blocks ← newArray;
  (* Extract reasoning content from additional_kwargs if present *)
  cond ← mret (_isObject (Raw.additional_kwargs message))
       &&& (rc ← getProp (Raw.additional_kwargs message) "reasoning_content";
            mret (_isString rc))
       &&& (rc ← getProp (Raw.additional_kwargs message) "reasoning_content";
            len ← getProp rc "length";
            mret (jsGreater len (JNumber 0)));
  (if cond : bool then
     rc ← getProp (Raw.additional_kwargs message) "reasoning_content";
     push blocks (JObject {[ "type" := JString "reasoning";
                             "reasoning" := rc ]})
   else mret ());;
  (* Add text content *)
  (if bool_decide (typeof (Raw.content message) = "string") then
     push blocks (JObject {[ "type" := JString "text";
                             "text" := Raw.content message ]})
   else if isArray (Raw.content message) then
     (* Handle structured content (already in content block format) *)
     forOf (Raw.content message) (λ block, push blocks block)
   else mret ());;
  (* Add tool calls *)
  toolCalls ← coalesce (Raw.tool_calls message) newArray;
  forOfOperand toolCalls (λ toolCall,
    id ← getProp toolCall "id";
    name ← getProp toolCall "name";
    args ← getProp toolCall "args";
    push blocks (JObject {[ "type" := JString "tool_call";
                            "id" := id;
                            "name" := name;
                            "args" := args ]}));;
  mret blocks.

(** [StandardContentBlockTranslator]: the pair of capabilities a provider
    registers. *)
Record StandardContentBlockTranslator : Type := {
  translateContent : Raw.t → JS Ref;
  translateContentChunk : Raw.t → JS Ref
}.

Definition ChatDeepSeekTranslator : StandardContentBlockTranslator := {|
  translateContent := convertToV1FromDeepSeek;
  translateContentChunk := convertToV1FromDeepSeek
|}.

(** What the caller of [call] holds once it has returned: the elements of
    the array whose reference came back. *)
Definition observe (call : JS Ref) (h : Heap) : Completion (list JSValue) :=
  match (r ← call; readArray r) h with
  | Normal (elements, _) => Normal elements
  | Throw e => Throw e
  end.

(** The block sequence of a message: one call in a store with no array
    objects yet. *)
Definition translate (message : Raw.t) : Completion (list JSValue) :=
  observe (convertToV1FromDeepSeek message) [].

(** ** The translation as the spec words it

    The spec gives the algorithm as three steps and a concatenation.  The
    definitions below follow those words; [convert_refines] relates them to
    the translator. *)

(** The value the spec calls [legacyMetadata.reasoning_content]: [None]
    when the bag or the key is missing. *)
Definition reasoning_content (m : MessageFields) : option JSValue :=
  match additional_kwargs m with
  | JObject bag => bag !! "reasoning_content"
  | _ => None
  end.

Definition reasoningBlock (R : string) : JSValue :=
  JObject {[ "type" := JString "reasoning"; "reasoning" := JString R ]}.

Definition textBlock (text : string) : JSValue :=
  JObject {[ "type" := JString "text"; "text" := JString text ]}.

Definition toolCallBlock (toolCall : ToolCall.t) : JSValue :=
  JObject {[ "type" := JString "tool_call";
             "id" := ToolCall.id toolCall;
             "name" := ToolCall.name toolCall;
             "args" := ToolCall.args toolCall ]}.

(** "present, of string type, and of non-zero length" *)
Definition hasReasoning (m : MessageFields) : bool :=
  match reasoning_content m with
  | Some (JString R) => bool_decide (String.length R ≠ 0)
  | _ => false
  end.

(** Step 1: the reasoning block, if any. *)
Definition spec_reasoning (m : MessageFields) : list JSValue :=
  match reasoning_content m with
  | Some (JString R) =>
      if bool_decide (String.length R ≠ 0) then [reasoningBlock R] else []
  | _ => []
  end.

(** Step 2: one text block for a string, the elements themselves for a
    sequence. *)
Definition spec_content (m : MessageFields) : list JSValue :=
  match content m with
  | JString text => [textBlock text]
  | JArray elements => elements
  | _ => []
  end.

(** Step 3: one block for each tool call. *)
Definition spec_tool_calls (m : MessageFields) : list JSValue :=
  toolCallBlock <$> default [] (tool_calls m).

(** Step 4: the concatenation, in that order. *)
Definition spec_translate (m : MessageFields) : list JSValue :=
  spec_reasoning m ++ spec_content m ++ spec_tool_calls m.

(** The [type] tag of a block, as a consumer reads it ([block.type]). *)
Definition blockType (block : JSValue) : JSValue :=
  match block with
  | JObject properties => default JUndefined (properties !! "type")
  | _ => JUndefined
  end.

(** [block.type === ty] *)
Definition hasType (ty : string) (block : JSValue) : bool :=
  match blockType block with
  | JString s => bool_decide (s = ty)
  | _ => false
  end.

(** [blocks.filter((b) => b.type === ty).length] *)
Definition countType (ty : string) (blocks : list JSValue) : nat :=
  length (List.filter (hasType ty) blocks).

(** A named field of a block, [JUndefined] when there is none. *)
Definition field (k : string) (block : JSValue) : JSValue :=
  match block with
  | JObject properties => default JUndefined (properties !! k)
  | _ => JUndefined
  end.

(** What [v.k] evaluates to when it does not throw. *)
Definition propOf (v : JSValue) (k : string) : JSValue :=
  match getProp v k [] with
  | Normal (x, _) => x
  | Throw _ => JUndefined
  end.

(** The block the tool-call step builds from an entry, whatever it is. *)
Definition rawToolCallBlock (entry : JSValue) : JSValue :=
  JObject {[ "type" := JString "tool_call";
             "id" := propOf entry "id";
             "name" := propOf entry "name";
             "args" := propOf entry "args" ]}.

(** The entries the tool-call step visits: none for an absent list, the
    elements of an array, the characters of a string; [None] when the
    value cannot be iterated. *)
Definition toolCallEntries (v : JSValue) : option (list JSValue) :=
  match v with
  | JUndefined | JNull => Some []
  | JArray elements => Some elements
  | JString s =>
      Some ((λ c, JString (String c "")) <$> String.list_ascii_of_string s)
  | _ => None
  end.

(** [tool_calls] can be iterated and none of its entries is [undefined] or
    [null]. *)
Definition toolCallsReadable (v : JSValue) : bool :=
  match toolCallEntries v with
  | Some entries => forallb (λ entry, negb (nullish entry)) entries
  | None => false
  end.

(** The fields of a run-time message that the first two steps read. *)
Definition readFields (message : Raw.t) : MessageFields :=
  {| content := Raw.content message;
     additional_kwargs := Raw.additional_kwargs message;
     tool_calls := None;
     response_metadata := Raw.response_metadata message |}.

(** The elements the content step forwards as they are. *)
Definition passthrough (m : MessageFields) : list JSValue :=
  match content m with
  | JArray elements => elements
  | _ => []
  end.

(** The same message with some of its fields replaced. *)
Definition withFields (m : Message) (f : MessageFields) : Message :=
  match m with
  | AIMessage _ => AIMessage f
  | AIMessageChunk _ => AIMessageChunk f
  end.

(** The message without its metadata bag. *)
Definition withoutReasoning (m : Message) : Message :=
  withFields m {| content := content m;
                  additional_kwargs := JUndefined;
                  tool_calls := tool_calls m;
                  response_metadata := response_metadata m |}.

(** The message without its [tool_calls] list. *)
Definition withoutToolCalls (m : Message) : Message :=
  withFields m {| content := content m;
                  additional_kwargs := additional_kwargs m;
                  tool_calls := None;
                  response_metadata := response_metadata m |}.

(** ** Merging chunks

    [AIMessageChunk.concat] belongs to the message entity and is not among
    the sources. *)

Section Merge.
(** What the spec leaves to the message entity: the merge of contents
    that are not both strings, of the other metadata keys, and the
    stitching of tool calls. *)
Variable mergeOtherContent : JSValue → JSValue → JSValue.
Variable mergeOtherMetadata :
  gmap string JSValue → gmap string JSValue → gmap string JSValue.
Variable stitchToolCalls :
  list ToolCall.t → list ToolCall.t → list ToolCall.t.

(** Modelled from the spec: "content fields concatenate as strings if
    both are strings (empty string is a valid operand and absorbs to the
    other side)". *)
Definition mergeContent (a b : JSValue) : JSValue :=
  match a, b with
  | JString x, JString y => JString (x +:+ y)
  | _, _ => mergeOtherContent a b
  end.

(** Modelled from the spec: the metadata bag as a mapping, empty when the
    bag is missing. *)
Definition bagOf (kwargs : JSValue) : gmap string JSValue :=
  match kwargs with
  | JObject bag => bag
  | _ => ∅
  end.

(** Modelled from the spec: the reasoning string of a bag; "absent, null,
    or non-string values are all equally no reasoning". *)
Definition reasoningOf (kwargs : JSValue) : option string :=
  match bagOf kwargs !! "reasoning_content" with
  | Some (JString R) => Some R
  | _ => None
  end.

(** Modelled from the spec: "reasoning_content concatenates as plain
    strings with no separator, in arrival order; a missing field on
    either side is treated as an empty string for the purpose of
    concatenation, not as absent: once either side has reasoning, the
    merged result has reasoning". *)
Definition mergeReasoning (a b : option string) : option string :=
  match a, b with
  | None, None => None
  | _, _ => Some (default "" a +:+ default "" b)
  end.

(** Modelled from the spec: the merged bag holds the merged reasoning
    under its conventional key. *)
Definition mergeKwargs (a b : JSValue) : JSValue :=
  let others := mergeOtherMetadata (bagOf a) (bagOf b) in
  JObject match mergeReasoning (reasoningOf a) (reasoningOf b) with
          | Some R => <["reasoning_content" := JString R]> others
          | None => others
          end.

(** Modelled from the spec: the merge of two chunks, a new chunk;
    "providerTag and other metadata are carried through unchanged". *)
Definition merge (a b : MessageFields) : MessageFields :=
  {| content := mergeContent (content a) (content b);
     additional_kwargs :=
       mergeKwargs (additional_kwargs a) (additional_kwargs b);
     tool_calls :=
       Some (stitchToolCalls (default [] (tool_calls a))
                             (default [] (tool_calls b)));
     response_metadata := response_metadata a |}.
End Merge.

(** ** The messages of the test suite *)

Definition deepseek : JSValue :=
  JObject {[ "model_provider" := JString "deepseek" ]}.

(** "should handle messages with reasoning and tool calls" *)
Definition weather_message : Message :=
  AIMessage
    {| content := JString "I'll check the weather";
       additional_kwargs :=
         JObject {[ "reasoning_content" :=
                      JString "User wants weather information..." ]};
       tool_calls :=
         Some [ToolCall.mk (JString "call_123") (JString "get_weather")
                 (JObject {[ "location" := JString "SF" ]})];
       response_metadata := deepseek |}.

(** "should handle array content" *)
Definition array_message : Message :=
  AIMessage
    {| content := JArray [textBlock "First part"; textBlock "Second part"];
       additional_kwargs :=
         JObject {[ "reasoning_content" := JString "Analyzing..." ]};
       tool_calls := None;
       response_metadata := deepseek |}.

(** "should not break when reasoning_content is not a string" *)
Definition null_reasoning_message : Message :=
  AIMessage
    {| content := JString "Answer";
       additional_kwargs := JObject {[ "reasoning_content" := JNull ]};
       tool_calls := None;
       response_metadata := deepseek |}.

(** "should accumulate reasoning across chunks" *)
Definition chunk1 : MessageFields :=
  {| content := JString "";
     additional_kwargs := JObject {[ "reasoning_content" := JString "Part 1" ]};
     tool_calls := None;
     response_metadata := deepseek |}.

Definition chunk2 : MessageFields :=
  {| content := JString "Answer";
     additional_kwargs :=
       JObject {[ "reasoning_content" := JString " Part 2" ]};
     tool_calls := None;
     response_metadata := deepseek |}.

(** Empty content, no metadata bag, no tool calls. *)
Definition empty_message : Message :=
  AIMessage
    {| content := JString "";
       additional_kwargs := JUndefined;
       tool_calls := None;
       response_metadata := deepseek |}.

(** No content at all. *)
Definition bare_message : Message :=
  AIMessage
    {| content := JUndefined;
       additional_kwargs := JUndefined;
       tool_calls := None;
       response_metadata := deepseek |}.

(** A bag that is not a mapping, and content elements that are not
    blocks. *)
Definition malformed_message : Message :=
  AIMessage
    {| content := JArray [JNull; JNumber 3; JString "x"];
       additional_kwargs := JNumber 7;
       tool_calls := None;
       response_metadata := JUndefined |}.

(** Structured content that already holds a reasoning block, and no
    [reasoning_content]. *)
Definition forwarded_reasoning_message : Message :=
  AIMessage
    {| content := JArray [reasoningBlock "Thinking..."];
       additional_kwargs := JUndefined;
       tool_calls := None;
       response_metadata := deepseek |}.

(** Structured content that already holds a tool-call block, and an empty
    list of tool calls. *)
Definition forwarded_tool_call_message : Message :=
  AIMessage
    {| content :=
         JArray [toolCallBlock (ToolCall.mk (JString "call_1")
                                  (JString "get_weather")
                                  (JObject {[ "location" := JString "NYC" ]}));
                 textBlock "Done"];
       additional_kwargs := JUndefined;
       tool_calls := Some [];
       response_metadata := deepseek |}.

(** A list of tool calls with a [null] entry. *)
Definition null_tool_call_message : Raw.t :=
  {| Raw.chunk := false;
     Raw.content := JString "Answer";
     Raw.additional_kwargs := JUndefined;
     Raw.tool_calls := JArray [JNull];
     Raw.response_metadata := deepseek |}.

(** [tool_calls] that is not a list. *)
Definition numeric_tool_calls_message : Raw.t :=
  {| Raw.chunk := false;
     Raw.content := JString "Answer";
     Raw.additional_kwargs := JUndefined;
     Raw.tool_calls := JNumber 5;
     Raw.response_metadata := deepseek |}.

(** ** What the callers in the test suite compute from the blocks *)

(** [blocks.some((b) => b.type === ty)] *)
Definition someType (ty : string) (blocks : list JSValue) : bool :=
  existsb (hasType ty) blocks.

(** [blocks.filter((b) => b.type === ty)] *)
Definition filterType (ty : string) (blocks : list JSValue) : list JSValue :=
  List.filter (hasType ty) blocks.

(** The message of "should handle messages with reasoning and tool calls"
    as a chunk, with one more key in its bag and no provider tag. *)
Definition weather_chunk : Message :=
  AIMessageChunk
    {| content := JString "I'll check the weather";
       additional_kwargs :=
         JObject {[ "reasoning_content" :=
                      JString "User wants weather information...";
                    "finish_reason" := JString "tool_calls" ]};
       tool_calls :=
         Some [ToolCall.mk (JString "call_123") (JString "get_weather")
                 (JObject {[ "location" := JString "SF" ]})];
       response_metadata := JUndefined |}.

(** ** The translator refines the spec's algorithm *)

Section Store.
Implicit Types (h : Heap) (bs : list JSValue) (x : JSValue).

Lemma bind_normal {A B} (c : JS A) (k : A → JS B) h a h' :
  c h = Normal (a, h') → (c ≫= k) h = k a h'.
Proof. intros Hc. unfold mbind, JS_bind, js_bind. by rewrite Hc. Qed.

Lemma push_last h bs x :
  push (length h) x (h ++ [bs]) = Normal ((), h ++ [bs ++ [x]]).
Proof.
  unfold push. rewrite list_lookup_middle by done.
  f_equal. f_equal.
  rewrite insert_app_r_alt by lia.
  by rewrite Nat.sub_diag.
Qed.

Lemma forEach_push {A} (f : A → JSValue) (l : list A) h bs :
  forEach l (λ a, push (length h) (f a)) (h ++ [bs])
  = Normal ((), h ++ [bs ++ (f <$> l)]).
Proof.
  revert bs. induction l as [|a l IH]; intros bs; simpl.
  - by rewrite app_nil_r.
  - erewrite bind_normal by apply push_last.
    rewrite IH. by rewrite <- app_assoc.
Qed.
End Store.

Section Refinement.
Implicit Types (message : MessageFields) (h : Heap) (bs : list JSValue).

(** The guard of the reasoning step never throws, whatever the bag is,
    and decides [hasReasoning]. *)
Lemma guard_eval message h :
  (mret (_isObject (additional_kwargs message))
     &&& (rc ← getProp (additional_kwargs message) "reasoning_content";
          mret (_isString rc))
     &&& (rc ← getProp (additional_kwargs message) "reasoning_content";
          len ← getProp rc "length";
          mret (jsGreater len (JNumber 0)))) h
  = Normal (hasReasoning message, h).
Proof.
  unfold hasReasoning, reasoning_content.
  destruct (additional_kwargs message) as [| | | | |l|bag]; try reflexivity.
  cbn.
  destruct (bag !! "reasoning_content") as [[| | | |R| |]|]; try reflexivity.
  cbv [andAlso mbind mret JS_bind JS_ret js_bind js_ret getProp jsGreater
       _isString default id].
  do 2 f_equal. apply bool_decide_ext. lia.
Qed.

Lemma reasoning_step message h bs :
  (if hasReasoning message then
     rc ← getProp (additional_kwargs message) "reasoning_content";
     push (length h) (JObject {[ "type" := JString "reasoning";
                                 "reasoning" := rc ]})
   else mret ()) (h ++ [bs])
  = Normal ((), h ++ [bs ++ spec_reasoning message]).
Proof.
  unfold hasReasoning, spec_reasoning, reasoning_content.
  destruct (additional_kwargs message) as [| | | | |l|bag];
    try (by rewrite app_nil_r).
  destruct (bag !! "reasoning_content") as [[| | | |R| |]|] eqn:Hrc;
    try (by rewrite app_nil_r).
  case_bool_decide; [|by rewrite app_nil_r].
  cbn. rewrite Hrc. cbn.
  erewrite bind_normal by reflexivity.
  apply push_last.
Qed.

Lemma content_step message h bs :
  (if bool_decide (typeof (content message) = "string") then
     push (length h) (JObject {[ "type" := JString "text";
                                 "text" := content message ]})
   else if isArray (content message) then
     forOf (content message) (λ block, push (length h) block)
   else mret ()) (h ++ [bs])
  = Normal ((), h ++ [bs ++ spec_content message]).
Proof.
  unfold spec_content.
  destruct (content message) as [| | | |s|l|o]; cbn;
    try (by rewrite app_nil_r).
  - apply push_last.
  - rewrite bool_decide_false by done.
    erewrite bind_normal by reflexivity.
    rewrite (forEach_push (λ x, x)). by rewrite list_fmap_id.
Qed.

Lemma bind_throw {A B} (c : JS A) (k : A → JS B) h e :
  c h = Throw e → (c ≫= k) h = Throw e.
Proof. intros Hc. unfold mbind, JS_bind, js_bind. by rewrite Hc. Qed.

Lemma getProp_normal (v : JSValue) (k : string) h :
  nullish v = false → getProp v k h = Normal (propOf v k, h).
Proof. by destruct v. Qed.

Lemma getProp_nullish (v : JSValue) (k : string) h :
  nullish v = true →
  getProp v k h
  = Throw (TypeError "Cannot read properties of undefined or null").
Proof. by destruct v. Qed.

(** The loop of the tool-call step: it throws at the first entry that is
    [undefined] or [null], and pushes one block per entry otherwise. *)
Lemma forEach_tool_calls (entries : list JSValue) h bs :
  forEach entries (λ toolCall,
    id ← getProp toolCall "id";
    name ← getProp toolCall "name";
    args ← getProp toolCall "args";
    push (length h) (JObject {[ "type" := JString "tool_call";
                                "id" := id;
                                "name" := name;
                                "args" := args ]})) (h ++ [bs])
  = if forallb (λ entry, negb (nullish entry)) entries
    then Normal ((), h ++ [bs ++ (rawToolCallBlock <$> entries)])
    else Throw (TypeError "Cannot read properties of undefined or null").
Proof.
  revert bs. induction entries as [|entry entries IH]; intros bs; simpl.
  - by rewrite app_nil_r.
  - destruct (nullish entry) eqn:Hn; simpl.
    + apply bind_throw, bind_throw. by apply getProp_nullish.
    + erewrite bind_normal; last first.
      { erewrite bind_normal by by apply getProp_normal.
        erewrite bind_normal by by apply getProp_normal.
        erewrite bind_normal by by apply getProp_normal.
        apply push_last. }
      rewrite IH. by rewrite <- app_assoc.
Qed.

Lemma forOfOperand_array (l : list JSValue) (body : JSValue → JS unit) :
  forOfOperand (Value (JArray l)) body = forEach l body.
Proof. reflexivity. Qed.

Lemma forOfOperand_string (s : string) (body : JSValue → JS unit) :
  forOfOperand (Value (JString s)) body
  = forEach ((λ c, JString (String c "")) <$> String.list_ascii_of_string s)
      body.
Proof. reflexivity. Qed.

(** The whole tool-call step, before whatever follows it: the fallback
    array is created only for an absent list, and is then the one more
    array object of the store. *)
Lemma tool_call_step {B} (v : JSValue) (k : JS B) h bs :
  (toolCalls ← coalesce v newArray;
   forOfOperand toolCalls (λ toolCall,
     id ← getProp toolCall "id";
     name ← getProp toolCall "name";
     args ← getProp toolCall "args";
     push (length h) (JObject {[ "type" := JString "tool_call";
                                 "id" := id;
                                 "name" := name;
                                 "args" := args ]}));;
   k) (h ++ [bs])
  = match toolCallEntries v with
    | Some entries =>
        if forallb (λ entry, negb (nullish entry)) entries
        then k (h ++ (bs ++ (rawToolCallBlock <$> entries))
                  :: (if nullish v then [[]] else []))
        else Throw (TypeError "Cannot read properties of undefined or null")
    | None => Throw (TypeError "value is not iterable")
    end.
Proof.
  assert (∀ l : list JSValue,
            (forEach l (λ toolCall,
               id ← getProp toolCall "id";
               name ← getProp toolCall "name";
               args ← getProp toolCall "args";
               push (length h) (JObject {[ "type" := JString "tool_call";
                                           "id" := id;
                                           "name" := name;
                                           "args" := args ]}));; k)
              (h ++ [bs])
            = if forallb (λ entry, negb (nullish entry)) l
              then k (h ++ [bs ++ (rawToolCallBlock <$> l)])
              else Throw (TypeError
                            "Cannot read properties of undefined or null"))
    as Hloop.
  { intros l. pose proof (forEach_tool_calls l h bs) as Hl.
    destruct (forallb _ l).
    - by erewrite bind_normal by apply Hl.
    - by apply bind_throw. }
  destruct v as [| | | |s|l|o]; unfold coalesce; simpl nullish;
    simpl toolCallEntries; cbv beta iota.
  - erewrite bind_normal by reflexivity. unfold forOfOperand.
    erewrite bind_normal; last first.
    { rewrite (bind_normal (readArray (length (h ++ [bs]))) _
                 ((h ++ [bs]) ++ [[]]) [] ((h ++ [bs]) ++ [[]])).
      - reflexivity.
      - unfold readArray. by rewrite list_lookup_middle. }
    simpl. by rewrite app_nil_r, <- app_assoc.
  - erewrite bind_normal by reflexivity. unfold forOfOperand.
    erewrite bind_normal; last first.
    { rewrite (bind_normal (readArray (length (h ++ [bs]))) _
                 ((h ++ [bs]) ++ [[]]) [] ((h ++ [bs]) ++ [[]])).
      - reflexivity.
      - unfold readArray. by rewrite list_lookup_middle. }
    simpl. by rewrite app_nil_r, <- app_assoc.
  - reflexivity.
  - reflexivity.
  - erewrite bind_normal by reflexivity.
    rewrite forOfOperand_string. apply Hloop.
  - erewrite bind_normal by reflexivity.
    rewrite forOfOperand_array. apply Hloop.
  - reflexivity.
Qed.

(** A call on a run-time message, in any store: it throws when
    [tool_calls] cannot be read, and otherwise allocates the array it
    returns (and the fallback array of an absent list), leaves every other
    array object as it was and fills its own with the spec's sequence. *)
Lemma convert_raw (r : Raw.t) h :
  convertToV1FromDeepSeek r h
  = match toolCallEntries (Raw.tool_calls r) with
    | Some entries =>
        if forallb (λ entry, negb (nullish entry)) entries
        then Normal (length h,
                     h ++ (spec_reasoning (readFields r)
                           ++ spec_content (readFields r)
                           ++ (rawToolCallBlock <$> entries))
                       :: (if nullish (Raw.tool_calls r) then [[]] else []))
        else Throw (TypeError "Cannot read properties of undefined or null")
    | None => Throw (TypeError "value is not iterable")
    end.
Proof.
  unfold convertToV1FromDeepSeek.
  erewrite bind_normal by reflexivity.
  erewrite bind_normal by apply (guard_eval (readFields r)).
  erewrite bind_normal by apply (reasoning_step (readFields r) h []).
  erewrite bind_normal by apply (content_step (readFields r)).
  rewrite tool_call_step.
  destruct (toolCallEntries (Raw.tool_calls r)) as [entries|]; [|done].
  destruct (forallb _ entries); [|done].
  cbn. unfold js_ret. by rewrite <- !app_assoc.
Qed.

Lemma declared_entries_readable (calls : list ToolCall.t) :
  forallb (λ entry, negb (nullish entry)) (toolCallObject <$> calls) = true.
Proof. by induction calls. Qed.

Lemma declared_entries_blocks (calls : list ToolCall.t) :
  rawToolCallBlock <$> (toolCallObject <$> calls) = toolCallBlock <$> calls.
Proof.
  induction calls as [|toolCall calls IH]; [done|].
  rewrite !fmap_cons, IH. by destruct toolCall.
Qed.

(** A call on a message whose tool calls are as declared never throws. *)
Lemma convert_refines (m : Message) h :
  convertToV1FromDeepSeek m h
  = Normal (length h,
            h ++ spec_translate m
              :: match tool_calls m with
                 | None => [[]]
                 | Some _ => []
                 end).
Proof.
  rewrite convert_raw.
  assert (spec_reasoning (readFields m) = spec_reasoning m) as -> by done.
  assert (spec_content (readFields m) = spec_content m) as -> by done.
  unfold spec_translate, spec_tool_calls.
  destruct m as [f|f]; destruct f as [c kw [calls|] rm]; simpl;
    by rewrite ?declared_entries_readable, ?declared_entries_blocks.
Qed.

Lemma observe_convert (m : Message) h :
  observe (convertToV1FromDeepSeek m) h = Normal (spec_translate m).
Proof.
  unfold observe.
  erewrite bind_normal by apply convert_refines.
  unfold readArray. by rewrite list_lookup_middle.
Qed.

Lemma translate_refines (m : Message) :
  translate m = Normal (spec_translate m).
Proof. apply observe_convert. Qed.
End Refinement.

(** ** The tags and fields of the blocks *)

Section BlockFacts.
Implicit Types (m : Message) (tc : ToolCall.t) (ty : string).

Lemma blockType_reasoningBlock R :
  blockType (reasoningBlock R) = JString "reasoning".
Proof. reflexivity. Qed.
Lemma blockType_textBlock s : blockType (textBlock s) = JString "text".
Proof. reflexivity. Qed.
Lemma blockType_toolCallBlock tc :
  blockType (toolCallBlock tc) = JString "tool_call".
Proof. reflexivity. Qed.
Lemma field_id tc : field "id" (toolCallBlock tc) = ToolCall.id tc.
Proof. reflexivity. Qed.
Lemma field_name tc : field "name" (toolCallBlock tc) = ToolCall.name tc.
Proof. reflexivity. Qed.
Lemma field_args tc : field "args" (toolCallBlock tc) = ToolCall.args tc.
Proof. reflexivity. Qed.

Lemma countType_app ty (a b : list JSValue) :
  countType ty (a ++ b) = countType ty a + countType ty b.
Proof. unfold countType. by rewrite List.filter_app, length_app. Qed.

Lemma countType_tool_calls ty (l : list ToolCall.t) :
  countType ty (toolCallBlock <$> l)
  = if bool_decide (ty = "tool_call") then length l else 0.
Proof.
  unfold countType. induction l as [|tc l IH]; simpl.
  - by case_bool_decide.
  - unfold hasType at 1. rewrite blockType_toolCallBlock.
    rewrite (bool_decide_ext ("tool_call" = ty) (ty = "tool_call"))
      by naive_solver.
    destruct (bool_decide (ty = "tool_call")); simpl; [f_equal|]; exact IH.
Qed.

Lemma length_spec_reasoning m :
  length (spec_reasoning m) = if hasReasoning m then 1 else 0.
Proof.
  unfold spec_reasoning, hasReasoning.
  destruct (reasoning_content m) as [[| | | |R| |]|]; try done.
  by case_bool_decide.
Qed.

Lemma countType_spec_reasoning ty m :
  countType ty (spec_reasoning m)
  = if bool_decide (ty = "reasoning") then length (spec_reasoning m) else 0.
Proof.
  unfold spec_reasoning.
  destruct (reasoning_content m) as [[| | | |R| |]|];
    try (by case_bool_decide).
  case_bool_decide; [|by case_bool_decide].
  unfold countType; simpl. unfold hasType. rewrite blockType_reasoningBlock.
  rewrite (bool_decide_ext ("reasoning" = ty) (ty = "reasoning"))
    by naive_solver.
  by destruct (bool_decide (ty = "reasoning")).
Qed.

Lemma spec_reasoning_cases m :
  if hasReasoning m
  then ∃ R, reasoning_content m = Some (JString R) ∧ String.length R ≠ 0
            ∧ spec_reasoning m = [reasoningBlock R]
  else spec_reasoning m = [].
Proof.
  unfold spec_reasoning, hasReasoning.
  destruct (reasoning_content m) as [[| | | |R| |]|]; try done.
  case_bool_decide; [|done]. by exists R.
Qed.

Lemma spec_content_passthrough m :
  countType "reasoning" (spec_content m)
  = countType "reasoning" (passthrough m)
  ∧ countType "tool_call" (spec_content m)
    = countType "tool_call" (passthrough m).
Proof.
  unfold spec_content, passthrough. by destruct (content m).
Qed.

Lemma withoutReasoning_spec m :
  spec_translate (withoutReasoning m) = spec_content m ++ spec_tool_calls m.
Proof. by destruct m. Qed.

Lemma withoutToolCalls_spec m :
  spec_translate (withoutToolCalls m) = spec_reasoning m ++ spec_content m.
Proof.
  destruct m; unfold spec_translate, spec_tool_calls; simpl;
    by rewrite app_nil_r.
Qed.
End BlockFacts.

Lemma filter_spec_reasoning ty (m : Message) :
  ty ≠ "reasoning" → List.filter (hasType ty) (spec_reasoning m) = [].
Proof.
  intros Hty. apply length_zero_iff_nil.
  fold (countType ty (spec_reasoning m)).
  rewrite countType_spec_reasoning. by rewrite bool_decide_false.
Qed.

Lemma filter_tool_calls ty (l : list ToolCall.t) :
  ty ≠ "tool_call" → List.filter (hasType ty) (toolCallBlock <$> l) = [].
Proof.
  intros Hty. apply length_zero_iff_nil.
  fold (countType ty (toolCallBlock <$> l)).
  rewrite countType_tool_calls. by rewrite bool_decide_false.
Qed.

(** ** The merge law *)

Section MergeLaw.
Variable mergeOtherContent : JSValue → JSValue → JSValue.
Variable mergeOtherMetadata :
  gmap string JSValue → gmap string JSValue → gmap string JSValue.
Variable stitchToolCalls :
  list ToolCall.t → list ToolCall.t → list ToolCall.t.

Local Abbreviation merged :=
  (merge mergeOtherContent mergeOtherMetadata stitchToolCalls).

Lemma merged_reasoning_content (a b : MessageFields) R :
  mergeReasoning (reasoningOf (additional_kwargs a))
                 (reasoningOf (additional_kwargs b)) = Some R →
  reasoning_content (merged a b) = Some (JString R).
Proof.
  intros HR. unfold reasoning_content, merge, mergeKwargs; simpl.
  rewrite HR. apply lookup_insert_eq.
Qed.

(** Translating the merge of two chunks whose contents are strings and
    of which at least one carries reasoning: the reasoning and the text
    are the concatenations, the tool calls are the stitched ones. *)
Lemma merge_then_translate (a b : MessageFields) (x y R : string) :
  content a = JString x →
  content b = JString y →
  mergeReasoning (reasoningOf (additional_kwargs a))
                 (reasoningOf (additional_kwargs b)) = Some R →
  String.length R ≠ 0 →
  translate (AIMessageChunk (merged a b))
  = Normal (reasoningBlock R :: textBlock (x +:+ y)
            :: (toolCallBlock <$> stitchToolCalls
                                    (default [] (tool_calls a))
                                    (default [] (tool_calls b)))).
Proof.
  intros Ha Hb HR Hlen. rewrite translate_refines.
  unfold spec_translate, spec_reasoning, spec_content, spec_tool_calls.
  simpl fieldsOf.
  rewrite (merged_reasoning_content a b R HR).
  rewrite bool_decide_true by done.
  unfold merge, mergeContent; simpl. by rewrite Ha, Hb.
Qed.
End MergeLaw.

(** ** The expectations of the test suite *)

Example weather_blocks :
  translate weather_message
  = Normal [reasoningBlock "User wants weather information...";
            textBlock "I'll check the weather";
            toolCallBlock (ToolCall.mk (JString "call_123")
                             (JString "get_weather")
                             (JObject {[ "location" := JString "SF" ]}))].
Proof. reflexivity. Qed.

Example array_blocks :
  translate array_message
  = Normal [reasoningBlock "Analyzing...";
            textBlock "First part"; textBlock "Second part"].
Proof. reflexivity. Qed.

Example null_reasoning_blocks :
  translate null_reasoning_message = Normal [textBlock "Answer"].
Proof. reflexivity. Qed.

Example chunk1_blocks :
  translate (AIMessageChunk chunk1)
  = Normal [reasoningBlock "Part 1"; textBlock ""].
Proof. reflexivity. Qed.

Example malformed_blocks :
  translate malformed_message = Normal [JNull; JNumber 3; JString "x"].
Proof. reflexivity. Qed.

Example bare_blocks : translate bare_message = Normal [].
Proof. reflexivity. Qed.

Example forwarded_tool_call_blocks :
  translate forwarded_tool_call_message
  = Normal [toolCallBlock (ToolCall.mk (JString "call_1")
                             (JString "get_weather")
                             (JObject {[ "location" := JString "NYC" ]}));
            textBlock "Done"].
Proof. reflexivity. Qed.

Example null_tool_call_error :
  translate null_tool_call_message
  = Throw (TypeError "Cannot read properties of undefined or null").
Proof. reflexivity. Qed.

Example numeric_tool_calls_error :
  translate numeric_tool_calls_message
  = Throw (TypeError "value is not iterable").
Proof. reflexivity. Qed.

(** The monad does model the fault the guard is there to avoid. *)
Example getProp_undefined_throws (h : Heap) :
  ∃ e, getProp JUndefined "reasoning_content" h = Throw e.
Proof. by eexists. Qed.

(** ** The properties of the translation *)

(** C1 (amended).  A reasoning block is emitted exactly when
    [reasoning_content] is present, a string and of non-zero length: the
    translation is then that block, carrying the string verbatim, in front
    of the translation [rest] of the message without its metadata bag, and
    it is [rest] alone otherwise.  In [rest] the blocks of type reasoning
    are those that an array content already holds and that are forwarded;
    there is none when the content is a string or is not an array. *)
Theorem reasoning_block_iff (m : Message) :
  ∃ rest,
    translate (withoutReasoning m) = Normal rest
    ∧ countType "reasoning" rest = countType "reasoning" (passthrough m)
    ∧ if hasReasoning m
      then ∃ R, reasoning_content m = Some (JString R)
                ∧ String.length R ≠ 0
                ∧ translate m = Normal (reasoningBlock R :: rest)
      else translate m = Normal rest.
Proof.
  exists (spec_content m ++ spec_tool_calls m).
  rewrite !translate_refines, withoutReasoning_spec.
  split; [done|]. split.
  - rewrite countType_app. unfold spec_tool_calls.
    rewrite countType_tool_calls, bool_decide_false by done.
    rewrite Nat.add_0_r. apply spec_content_passthrough.
  - unfold spec_translate.
    pose proof (spec_reasoning_cases m) as H.
    destruct (hasReasoning m).
    + destruct H as (R & Hrc & Hlen & ->). by exists R.
    + by rewrite H.
Qed.

(** C1 as first stated fails: a message with no [reasoning_content] whose
    array content holds a reasoning block has that block in its
    translation ([forwarded_reasoning_message]). *)
Lemma forwarded_reasoning_block :
  ¬ ∀ m : Message,
      hasReasoning m = false →
      ∀ out, translate m = Normal out → countType "reasoning" out = 0.
Proof.
  intros H.
  specialize (H forwarded_reasoning_message eq_refl
                [reasoningBlock "Thinking..."] eq_refl).
  discriminate H.
Qed.

(** C2.  When the content is a string, the blocks of type text in the
    translation are exactly one, carrying that string verbatim; it sits at
    index 1 behind the reasoning block when there is one and at index 0
    otherwise; and with no reasoning and no tool calls the translation is
    that one block, also for the empty string. *)
Theorem string_content_one_text_block (m : Message) (text : string) :
  content m = JString text →
  ∃ out,
    translate m = Normal out
    ∧ List.filter (hasType "text") out = [textBlock text]
    ∧ out !! (if hasReasoning m then 1 else 0) = Some (textBlock text)
    ∧ (∀ i, i < (if hasReasoning m then 1 else 0) →
            ∃ R, out !! i = Some (reasoningBlock R))
    ∧ (hasReasoning m = false → default [] (tool_calls m) = [] →
       out = [textBlock text]).
Proof.
  intros Hc. exists (spec_translate m). split; [apply translate_refines|].
  unfold spec_translate, spec_content, spec_tool_calls. rewrite Hc.
  split.
  { rewrite !List.filter_app.
    rewrite filter_spec_reasoning, filter_tool_calls by done.
    reflexivity. }
  pose proof (spec_reasoning_cases m) as H.
  destruct (hasReasoning m).
  - destruct H as (R & _ & _ & ->). repeat split; try done.
    intros i Hi. exists R. by replace i with 0 by lia.
  - rewrite H. repeat split; try done.
    + intros; lia.
    + by intros _ ->.
Qed.

Lemma string_content_one_text_block_witness :
  content empty_message = JString ""
  ∧ translate empty_message = Normal [textBlock ""].
Proof.
  split; [reflexivity|].
  destruct (string_content_one_text_block empty_message "" eq_refl)
    as (out & Hout & _ & _ & _ & Hone).
  rewrite Hout. f_equal. apply Hone; reflexivity.
Defined.

(** C3.  When the content is an array, its elements are forwarded
    unchanged and in order: the translation is that of the message without
    content with the elements themselves inserted between the reasoning
    part (at most one block) and the tool-call blocks. *)
Theorem array_content_forwarded (m : Message) (elements : list JSValue) :
  content m = JArray elements →
  ∃ before after,
    translate m = Normal (before ++ elements ++ after)
    ∧ translate (withFields m {| content := JUndefined;
                                 additional_kwargs := additional_kwargs m;
                                 tool_calls := tool_calls m;
                                 response_metadata := response_metadata m |})
      = Normal (before ++ after)
    ∧ before = spec_reasoning m
    ∧ length before = (if hasReasoning m then 1 else 0)
    ∧ after = toolCallBlock <$> default [] (tool_calls m)
    ∧ ∀ i, i < length elements →
           (before ++ elements ++ after) !! (length before + i)
           = elements !! i.
Proof.
  intros Hc.
  exists (spec_reasoning m), (spec_tool_calls m).
  rewrite !translate_refines. unfold spec_translate at 1, spec_content.
  rewrite Hc. repeat split.
  - by destruct m.
  - apply length_spec_reasoning.
  - intros i Hi. rewrite lookup_app_r by lia.
    replace (length (spec_reasoning m) + i - length (spec_reasoning m))
      with i by lia.
    by rewrite lookup_app_l.
Qed.

Lemma array_content_forwarded_witness :
  content array_message
  = JArray [textBlock "First part"; textBlock "Second part"]
  ∧ translate array_message
    = Normal [reasoningBlock "Analyzing...";
              textBlock "First part"; textBlock "Second part"].
Proof.
  split; [reflexivity|].
  destruct (array_content_forwarded array_message _ eq_refl)
    as (before & after & Hout & _ & -> & _ & -> & _).
  rewrite Hout. reflexivity.
Defined.

(** C4 (amended).  The translation is that of the message without its
    tool calls followed by one block per tool call, in order: these are the
    last blocks, there are as many as tool calls (none when the list is
    absent), each is of type tool_call and has the id, name and args of its
    entry.  The other blocks of type tool_call in the output are those that
    an array content already holds and that are forwarded; there is none
    when the content is a string or is not an array. *)
Theorem tool_call_blocks_last (m : Message) :
  ∃ before out,
    translate (withoutToolCalls m) = Normal before
    ∧ translate m = Normal out
    ∧ out = before ++ (toolCallBlock <$> default [] (tool_calls m))
    ∧ length out = length before + length (default [] (tool_calls m))
    ∧ countType "tool_call" before = countType "tool_call" (passthrough m)
    ∧ countType "tool_call" out
      = countType "tool_call" (passthrough m)
        + length (default [] (tool_calls m))
    ∧ ∀ i toolCall,
        default [] (tool_calls m) !! i = Some toolCall →
        ∃ block,
          out !! (length before + i) = Some block
          ∧ blockType block = JString "tool_call"
          ∧ field "id" block = ToolCall.id toolCall
          ∧ field "name" block = ToolCall.name toolCall
          ∧ field "args" block = ToolCall.args toolCall.
Proof.
  exists (spec_reasoning m ++ spec_content m), (spec_translate m).
  rewrite !translate_refines, withoutToolCalls_spec.
  unfold spec_translate, spec_tool_calls.
  assert (countType "tool_call" (spec_reasoning m ++ spec_content m)
          = countType "tool_call" (passthrough m)) as Hbefore.
  { rewrite countType_app, countType_spec_reasoning.
    rewrite bool_decide_false by done. apply spec_content_passthrough. }
  repeat split.
  - by rewrite app_assoc.
  - rewrite !length_app, length_fmap. lia.
  - exact Hbefore.
  - rewrite app_assoc, countType_app, countType_tool_calls, Hbefore.
    by rewrite bool_decide_true.
  - intros i toolCall Hi. exists (toolCallBlock toolCall).
    split; [|done].
    rewrite app_assoc, lookup_app_r by lia.
    replace (length (spec_reasoning m ++ spec_content m) + i
             - length (spec_reasoning m ++ spec_content m)) with i by lia.
    by rewrite list_lookup_fmap, Hi.
Qed.

(** C4 as first stated fails: a message with an empty list of tool calls
    whose array content holds a tool-call block has that block in its
    translation, and not in the last place
    ([forwarded_tool_call_message]). *)
Lemma forwarded_tool_call_block :
  ¬ ∀ m : Message,
      ∀ out, translate m = Normal out →
             countType "tool_call" out = length (default [] (tool_calls m)).
Proof.
  intros H.
  specialize (H forwarded_tool_call_message _ eq_refl).
  discriminate H.
Qed.

(** C5.  The translation is the concatenation of the reasoning part (at
    most one block), the content part and the tool-call part, in that
    order: every index of the output falls in the part its position
    dictates. *)
Theorem fixed_block_order (m : Message) :
  translate m
  = Normal (spec_reasoning m ++ spec_content m ++ spec_tool_calls m)
  ∧ length (spec_reasoning m) ≤ 1
  ∧ ∀ i,
      (spec_reasoning m ++ spec_content m ++ spec_tool_calls m) !! i
      = if decide (i < length (spec_reasoning m))
        then spec_reasoning m !! i
        else if decide (i < length (spec_reasoning m)
                            + length (spec_content m))
             then spec_content m !! (i - length (spec_reasoning m))
             else spec_tool_calls m
                    !! (i - length (spec_reasoning m)
                          - length (spec_content m)).
Proof.
  split; [apply translate_refines|]. split.
  - rewrite length_spec_reasoning. destruct (hasReasoning m); lia.
  - intros i. repeat case_decide.
    + by rewrite lookup_app_l.
    + rewrite lookup_app_r by lia. by rewrite lookup_app_l by lia.
    + rewrite lookup_app_r by lia. by rewrite lookup_app_r by lia.
Qed.

(** C6.  With the merge as the spec gives it, whatever the message entity
    does where the spec is silent and provided that stitching no tool
    calls gives none, the merge of the two chunks of the test translates
    to the reasoning "Part 1 Part 2" followed by the text "Answer". *)
Theorem merged_chunks_translate
    (mergeOtherContent : JSValue → JSValue → JSValue)
    (mergeOtherMetadata :
       gmap string JSValue → gmap string JSValue → gmap string JSValue)
    (stitchToolCalls : list ToolCall.t → list ToolCall.t → list ToolCall.t) :
  stitchToolCalls [] [] = [] →
  translate (AIMessageChunk
               (merge mergeOtherContent mergeOtherMetadata stitchToolCalls
                  chunk1 chunk2))
  = Normal [reasoningBlock "Part 1 Part 2"; textBlock "Answer"].
Proof.
  intros Hnil.
  rewrite (merge_then_translate _ _ _ chunk1 chunk2 "" "Answer"
             "Part 1 Part 2") by done.
  simpl. by rewrite Hnil.
Qed.

Lemma merged_chunks_translate_witness :
  (λ a b : list ToolCall.t, a ++ b) [] [] = []
  ∧ translate (AIMessageChunk
                 (merge (λ a _, a) (λ a b, a ∪ b) (λ a b, a ++ b)
                    chunk1 chunk2))
    = Normal [reasoningBlock "Part 1 Part 2"; textBlock "Answer"].
Proof.
  split; [reflexivity|].
  apply (merged_chunks_translate (λ a _, a) (λ a b, a ∪ b) (λ a b, a ++ b)).
  reflexivity.
Defined.

(** C7 (amended).  A call completes normally, in every store, exactly
    when [tool_calls] can be read: it is absent, or it can be iterated and
    none of its entries is [undefined] or [null]; that is so of every
    message whose tool calls are as declared, whatever its content, its
    bag and its reasoning are.  Otherwise the call throws. *)
Theorem translate_completes_iff (message : Raw.t) (h : Heap) :
  (∀ m : Message, toolCallsReadable (Raw.tool_calls m) = true)
  ∧ if toolCallsReadable (Raw.tool_calls message)
    then ∃ blocks h' out,
           convertToV1FromDeepSeek message h = Normal (blocks, h')
           ∧ observe (convertToV1FromDeepSeek message) h = Normal out
    else ∃ e,
           convertToV1FromDeepSeek message h = Throw e
           ∧ observe (convertToV1FromDeepSeek message) h = Throw e.
Proof.
  split.
  { intros [f|f]; destruct f as [c kw [calls|] rm]; try done;
      unfold toolCallsReadable; simpl; apply declared_entries_readable. }
  unfold toolCallsReadable, observe.
  pose proof (convert_raw message h) as Hcall.
  destruct (toolCallEntries (Raw.tool_calls message)) as [entries|].
  - destruct (forallb _ entries).
    + eexists _, _, _. split; [exact Hcall|].
      erewrite bind_normal by exact Hcall.
      unfold readArray. by rewrite list_lookup_middle.
    + eexists. split; [exact Hcall|].
      by erewrite bind_throw by exact Hcall.
  - eexists. split; [exact Hcall|].
    by erewrite bind_throw by exact Hcall.
Qed.

(** C7 as first stated fails: the tool-call step reads the entries of
    [tool_calls] without a guard, and a [null] entry makes it throw
    ([null_tool_call_message]). *)
Lemma null_tool_call_throws :
  ¬ ∀ message : Raw.t, ∃ out, translate message = Normal out.
Proof.
  intros H. destruct (H null_tool_call_message) as [out Hout].
  discriminate Hout.
Qed.

(** C8.  Two successive calls on the same message, in whatever store the
    first one starts, return two distinct arrays that hold the same
    sequence of blocks; the second call leaves the first array as it
    was. *)
Theorem translate_deterministic (m : Message) (h : Heap) :
  ∃ first h1 second h2 out,
    convertToV1FromDeepSeek m h = Normal (first, h1)
    ∧ convertToV1FromDeepSeek m h1 = Normal (second, h2)
    ∧ first ≠ second
    ∧ h1 !! first = Some out
    ∧ h2 !! first = Some out
    ∧ h2 !! second = Some out
    ∧ observe (convertToV1FromDeepSeek m) h = Normal out
    ∧ observe (convertToV1FromDeepSeek m) h1 = Normal out.
Proof.
  eexists _, _, _, _, (spec_translate m).
  split; [apply convert_refines|]. split; [apply convert_refines|].
  rewrite !observe_convert. repeat split.
  - rewrite length_app. simpl. lia.
  - by rewrite list_lookup_middle.
  - rewrite lookup_app_l by (rewrite length_app; simpl; lia).
    by rewrite list_lookup_middle.
  - by rewrite list_lookup_middle.
Qed.

(** C9.  When the content is neither a string nor an array, the content
    step adds nothing: the translation is the reasoning part followed by
    the tool-call part, the same as for an empty array, and it is empty
    when there is no reasoning and no tool call either. *)
Theorem other_content_no_block (m : Message) :
  (∀ text, content m ≠ JString text) →
  (∀ elements, content m ≠ JArray elements) →
  ∃ out,
    translate m = Normal out
    ∧ translate (withFields m {| content := JArray [];
                                 additional_kwargs := additional_kwargs m;
                                 tool_calls := tool_calls m;
                                 response_metadata := response_metadata m |})
      = Normal out
    ∧ out = spec_reasoning m ++ spec_tool_calls m
    ∧ (hasReasoning m = false → default [] (tool_calls m) = [] → out = []).
Proof.
  intros Hs Ha. exists (spec_reasoning m ++ spec_tool_calls m).
  rewrite !translate_refines.
  assert (spec_content m = []) as Hnil.
  { unfold spec_content. destruct (content m); try done.
    - by destruct (Hs s).
    - by destruct (Ha elements). }
  repeat split.
  - unfold spec_translate. by rewrite Hnil.
  - by destruct m.
  - intros Hr Ht. pose proof (spec_reasoning_cases m) as H.
    rewrite Hr in H. rewrite H. unfold spec_tool_calls. by rewrite Ht.
Qed.

Lemma other_content_no_block_witness :
  (∀ text, content bare_message ≠ JString text)
  ∧ (∀ elements, content bare_message ≠ JArray elements)
  ∧ translate bare_message = Normal [].
Proof.
  assert (∀ text, content bare_message ≠ JString text) as Hs by done.
  assert (∀ elements, content bare_message ≠ JArray elements) as Ha by done.
  split; [exact Hs|]. split; [exact Ha|].
  destruct (other_content_no_block bare_message Hs Ha)
    as (out & Hout & _ & _ & Hnil).
  rewrite Hout. f_equal. apply Hnil; reflexivity.
Defined.

(** C10.  Both capabilities of the registered translator are
    [convertToV1FromDeepSeek], so the same fields translate alike as a
    complete message and as a chunk, in every store. *)
Theorem complete_and_chunk_agree (f : MessageFields) (h : Heap) :
  translateContent ChatDeepSeekTranslator = convertToV1FromDeepSeek
  ∧ translateContentChunk ChatDeepSeekTranslator = convertToV1FromDeepSeek
  ∧ translateContent ChatDeepSeekTranslator (AIMessage f) h
    = translateContentChunk ChatDeepSeekTranslator (AIMessageChunk f) h
  ∧ observe (translateContent ChatDeepSeekTranslator (AIMessage f)) h
    = observe (translateContentChunk ChatDeepSeekTranslator
                 (AIMessageChunk f)) h.
Proof.
  split; [done|]. split; [done|]. simpl. split.
  - by rewrite !convert_refines.
  - by rewrite !observe_convert.
Qed.

(** ** Further properties of the translation *)

Lemma toolCallBlock_inj (a b : ToolCall.t) :
  toolCallBlock a = toolCallBlock b → a = b.
Proof.
  intros H.
  pose proof (f_equal (field "id") H) as Hid.
  pose proof (f_equal (field "name") H) as Hname.
  pose proof (f_equal (field "args") H) as Hargs.
  rewrite !field_id in Hid. rewrite !field_name in Hname.
  rewrite !field_args in Hargs.
  destruct a, b; simpl in *. by subst.
Qed.

Lemma toolCallBlocks_inj (l1 l2 : list ToolCall.t) :
  toolCallBlock <$> l1 = toolCallBlock <$> l2 → l1 = l2.
Proof.
  revert l2. induction l1 as [|a l1 IH]; intros [|b l2] H; try done.
  rewrite !fmap_cons in H.
  apply (inj2 cons) in H as [Hab Hl].
  f_equal; [by apply toolCallBlock_inj | by apply IH].
Qed.

Lemma textBlock_inj s1 s2 : textBlock s1 = textBlock s2 → s1 = s2.
Proof.
  intros H. pose proof (f_equal (field "text") H) as Hf.
  by injection Hf.
Qed.

Lemma reasoningBlock_inj s1 s2 :
  reasoningBlock s1 = reasoningBlock s2 → s1 = s2.
Proof.
  intros H. pose proof (f_equal (field "reasoning") H) as Hf.
  by injection Hf.
Qed.

Lemma reasoning_not_text R s : reasoningBlock R ≠ textBlock s.
Proof. intros H. pose proof (f_equal blockType H) as Hf. discriminate Hf. Qed.

Lemma text_not_toolCall s tc : textBlock s ≠ toolCallBlock tc.
Proof. intros H. pose proof (f_equal blockType H) as Hf. discriminate Hf. Qed.

Lemma spec_translate_ext (m1 m2 : MessageFields) :
  reasoning_content m1 = reasoning_content m2 →
  content m1 = content m2 →
  default [] (tool_calls m1) = default [] (tool_calls m2) →
  spec_translate m1 = spec_translate m2.
Proof.
  intros Hr Hc Ht.
  unfold spec_translate, spec_reasoning, spec_content, spec_tool_calls.
  by rewrite Hr, Hc, Ht.
Qed.

(** X1.  The number of blocks: one for the reasoning when it is emitted,
    one for a string content or one per element of an array content, and
    one per tool call. *)
Theorem translate_length (m : Message) :
  ∃ out,
    translate m = Normal out
    ∧ length out
      = (if hasReasoning m then 1 else 0)
        + match content m with
          | JString _ => 1
          | JArray elements => length elements
          | _ => 0
          end
        + length (default [] (tool_calls m)).
Proof.
  exists (spec_translate m). split; [apply translate_refines|].
  unfold spec_translate, spec_tool_calls.
  rewrite !length_app, length_fmap, length_spec_reasoning.
  unfold spec_content. destruct (content m); simpl; lia.
Qed.


(** X3.  The translation reads three things only: the value under
    [reasoning_content] in the bag, the content, and the tool calls (an
    absent list counting as empty).  Messages that agree on those translate
    alike, whatever their other bag keys, their [response_metadata] and
    their flavour. *)
Theorem translate_reads_three_fields (m1 m2 : Message) :
  reasoning_content m1 = reasoning_content m2 →
  content m1 = content m2 →
  default [] (tool_calls m1) = default [] (tool_calls m2) →
  translate m1 = translate m2.
Proof.
  intros Hr Hc Ht. rewrite !translate_refines.
  f_equal. by apply spec_translate_ext.
Qed.

Lemma translate_reads_three_fields_witness :
  reasoning_content weather_message = reasoning_content weather_chunk
  ∧ content weather_message = content weather_chunk
  ∧ default [] (tool_calls weather_message)
    = default [] (tool_calls weather_chunk)
  ∧ response_metadata weather_message ≠ response_metadata weather_chunk
  ∧ additional_kwargs weather_message ≠ additional_kwargs weather_chunk
  ∧ translate weather_message = translate weather_chunk.
Proof.
  split; [reflexivity|]. split; [reflexivity|]. split; [reflexivity|].
  split; [done|]. split; [done|].
  apply (translate_reads_three_fields weather_message weather_chunk);
    reflexivity.
Defined.

(** X4.  On messages with string content the translation loses nothing of
    what it reads: equal translations force equal texts, equal tool calls
    and the same emitted reasoning. *)
Theorem string_translation_injective (m1 m2 : Message) (s1 s2 : string) :
  content m1 = JString s1 →
  content m2 = JString s2 →
  translate m1 = translate m2 →
  s1 = s2
  ∧ default [] (tool_calls m1) = default [] (tool_calls m2)
  ∧ hasReasoning m1 = hasReasoning m2
  ∧ (hasReasoning m1 = true → reasoning_content m1 = reasoning_content m2).
Proof.
  intros H1 H2. rewrite !translate_refines. intros [= H].
  unfold spec_translate, spec_content, spec_tool_calls in H.
  rewrite H1, H2 in H.
  pose proof (spec_reasoning_cases m1) as C1.
  pose proof (spec_reasoning_cases m2) as C2.
  destruct (hasReasoning m1), (hasReasoning m2).
  - destruct C1 as (R1 & Hr1 & _ & E1), C2 as (R2 & Hr2 & _ & E2).
    rewrite E1, E2 in H. simpl in H.
    apply (inj2 cons) in H as [HR H]. apply (inj2 cons) in H as [Hs H].
    apply reasoningBlock_inj in HR as ->. apply textBlock_inj in Hs as ->.
    apply toolCallBlocks_inj in H.
    repeat split; try done. intros _. by rewrite Hr1, Hr2.
  - destruct C1 as (R1 & _ & _ & E1). rewrite E1, C2 in H. simpl in H.
    apply (inj2 cons) in H as [HR _]. by destruct (reasoning_not_text R1 s2).
  - destruct C2 as (R2 & _ & _ & E2). rewrite C1, E2 in H. simpl in H.
    apply (inj2 cons) in H as [HR _].
    by destruct (reasoning_not_text R2 s1).
  - rewrite C1, C2 in H. simpl in H.
    apply (inj2 cons) in H as [Hs H].
    apply textBlock_inj in Hs as ->. apply toolCallBlocks_inj in H.
    repeat split; done.
Qed.

Lemma string_translation_injective_witness :
  content weather_message = JString "I'll check the weather"
  ∧ content weather_chunk = JString "I'll check the weather"
  ∧ translate weather_message = translate weather_chunk
  ∧ default [] (tool_calls weather_message)
    = default [] (tool_calls weather_chunk)
  ∧ reasoning_content weather_message = reasoning_content weather_chunk.
Proof.
  split; [reflexivity|]. split; [reflexivity|]. split; [reflexivity|].
  destruct (string_translation_injective weather_message weather_chunk
              _ _ eq_refl eq_refl eq_refl) as (_ & Ht & _ & Hr).
  split; [exact Ht | by apply Hr].
Defined.

(** X5.  When the content is not an array, the [type] tags of the output
    are, in order: reasoning if it is emitted, text if the content is a
    string, then tool_call once per tool call; no other tag occurs. *)
Theorem block_types_without_array (m : Message) :
  isArray (content m) = false →
  ∃ out,
    translate m = Normal out
    ∧ blockType <$> out
      = (if hasReasoning m then [JString "reasoning"] else [])
        ++ (if _isString (content m) then [JString "text"] else [])
        ++ replicate (length (default [] (tool_calls m)))
             (JString "tool_call").
Proof.
  intros Ha. exists (spec_translate m). split; [apply translate_refines|].
  unfold spec_translate. rewrite !fmap_app. f_equal; [|f_equal].
  - pose proof (spec_reasoning_cases m) as C.
    destruct (hasReasoning m).
    + by destruct C as (R & _ & _ & ->).
    + by rewrite C.
  - unfold spec_content. by destruct (content m).
  - unfold spec_tool_calls.
    induction (default [] (tool_calls m)) as [|tc l IH]; [done|].
    simpl. f_equal. exact IH.
Qed.

Lemma block_types_without_array_witness :
  isArray (content weather_message) = false
  ∧ ∃ out,
      translate weather_message = Normal out
      ∧ blockType <$> out
        = [JString "reasoning"; JString "text"; JString "tool_call"].
Proof.
  split; [reflexivity|].
  destruct (block_types_without_array weather_message eq_refl)
    as (out & Hout & Hty).
  exists out. split; [exact Hout | exact Hty].
Defined.

(** X6.  Translating again is the identity: a message whose content is
    the array of blocks already obtained, with no bag and no tool calls,
    translates to those same blocks. *)
Theorem retranslation_is_identity (m : Message) :
  ∃ out,
    translate m = Normal out
    ∧ translate (withFields m {| content := JArray out;
                                 additional_kwargs := JUndefined;
                                 tool_calls := None;
                                 response_metadata := response_metadata m |})
      = Normal out.
Proof.
  exists (spec_translate m). split; [apply translate_refines|].
  rewrite translate_refines. f_equal.
  destruct m; unfold spec_translate at 1; simpl; by rewrite app_nil_r.
Qed.

(** X7.  What the integration tests compute: when the content is not an
    array, some block has type reasoning exactly when the reasoning is
    emitted, the blocks of that type are one or none accordingly, and the
    [reasoning] field of each is the value stored under
    [additional_kwargs.reasoning_content]. *)
Theorem reasoning_filter_matches_kwargs (m : Message) :
  isArray (content m) = false →
  ∃ out,
    translate m = Normal out
    ∧ someType "reasoning" out = hasReasoning m
    ∧ length (filterType "reasoning" out) = (if hasReasoning m then 1 else 0)
    ∧ ∀ block, block ∈ filterType "reasoning" out →
               reasoning_content m = Some (field "reasoning" block).
Proof.
  intros Ha. exists (spec_translate m). split; [apply translate_refines|].
  assert (filterType "reasoning" (spec_translate m) = spec_reasoning m) as Hf.
  { unfold filterType, spec_translate. rewrite !List.filter_app.
    unfold spec_tool_calls. rewrite filter_tool_calls by done.
    rewrite app_nil_r.
    assert (List.filter (hasType "reasoning") (spec_content m) = []) as ->.
    { unfold spec_content. by destruct (content m). }
    rewrite app_nil_r.
    pose proof (spec_reasoning_cases m) as C.
    destruct (hasReasoning m).
    - by destruct C as (R & _ & _ & ->).
    - by rewrite C. }
  split; [|split].
  - unfold someType.
    destruct (existsb (hasType "reasoning") (spec_translate m)) eqn:E.
    + apply existsb_exists in E as (b & Hin & Hb).
      assert (In b (filterType "reasoning" (spec_translate m))) as Hin'
        by (apply List.filter_In; done).
      rewrite Hf in Hin'.
      pose proof (spec_reasoning_cases m) as C.
      destruct (hasReasoning m); [done|]. rewrite C in Hin'. destruct Hin'.
    + pose proof (spec_reasoning_cases m) as C.
      destruct (hasReasoning m); [|done].
      destruct C as (R & _ & _ & HR).
      assert (existsb (hasType "reasoning") (spec_translate m) = true) as E'.
      { apply existsb_exists. exists (reasoningBlock R). split; [|done].
        unfold spec_translate. rewrite HR. by left. }
      congruence.
  - rewrite Hf. apply length_spec_reasoning.
  - rewrite Hf. intros block Hin.
    pose proof (spec_reasoning_cases m) as C.
    destruct (hasReasoning m).
    + destruct C as (R & Hrc & _ & HR). rewrite HR in Hin.
      apply list_elem_of_singleton in Hin as ->. exact Hrc.
    + rewrite C in Hin. by apply not_elem_of_nil in Hin.
Qed.

Lemma reasoning_filter_matches_kwargs_witness :
  isArray (content weather_message) = false
  ∧ ∃ out,
      translate weather_message = Normal out
      ∧ someType "reasoning" out = true
      ∧ length (filterType "reasoning" out) = 1.
Proof.
  split; [reflexivity|].
  destruct (reasoning_filter_matches_kwargs weather_message eq_refl)
    as (out & Hout & Hsome & Hlen & _).
  exists out. split; [exact Hout|]. split; [exact Hsome | exact Hlen].
Defined.

(** X8.  A string content translates exactly as the one-element array
    content holding its text block. *)
Theorem string_as_singleton_array (m : Message) (text : string) :
  content m = JString text →
  translate m
  = translate (withFields m {| content := JArray [textBlock text];
                               additional_kwargs := additional_kwargs m;
                               tool_calls := tool_calls m;
                               response_metadata := response_metadata m |}).
Proof.
  intros Hc. rewrite !translate_refines. f_equal.
  unfold spec_translate, spec_content. rewrite Hc. by destruct m.
Qed.

Lemma string_as_singleton_array_witness :
  content empty_message = JString ""
  ∧ translate (AIMessage {| content := JArray [textBlock ""];
                            additional_kwargs := JUndefined;
                            tool_calls := None;
                            response_metadata := deepseek |})
    = Normal [textBlock ""].
Proof.
  split; [reflexivity|].
  etransitivity;
    [symmetry; exact (string_as_singleton_array empty_message "" eq_refl)|].
  reflexivity.
Defined.

(** X9.  Adding tool calls at the end of the list only appends their
    blocks: the former translation is a prefix of the new one. *)
Theorem more_tool_calls_extend (m : Message) (more : list ToolCall.t) :
  ∃ out,
    translate m = Normal out
    ∧ translate (withFields m
                   {| content := content m;
                      additional_kwargs := additional_kwargs m;
                      tool_calls := Some (default [] (tool_calls m) ++ more);
                      response_metadata := response_metadata m |})
      = Normal (out ++ (toolCallBlock <$> more)).
Proof.
  exists (spec_translate m). split; [apply translate_refines|].
  rewrite translate_refines. f_equal.
  destruct m; unfold spec_translate, spec_tool_calls; simpl;
    by rewrite fmap_app, !app_assoc.
Qed.
